(** * web_scraping: a shallow embedding of [scraper.py]

    The script fetches a search page, collects the product links found on
    it, runs four field extractors over every product page and writes the
    table of results as CSV.  This file embeds the extractors
    ([get_title], [get_price], [get_rating], [get_seller_name]), the link
    loop and the table pipeline of the main block, and proves the
    properties of the specification about them.

    Python strings are sequences of Unicode code points; the parsed page
    is the BeautifulSoup tree the functions receive.  Python code that may
    raise is written in a small state-and-exception monad, so that
    [try ... except AttributeError] reads as in the source. *)

From Stdlib Require Import ZArith String Ascii.
From stdpp Require Import base option list countable gmap.

Local Open Scope Z_scope.
#[local] Set Warnings "-register-all".

(** ** Python strings *)

Module PyStr.

(** A character is a code point, a [str] a list of them. *)
Definition char := N.
Definition str := list char.

(** An ASCII literal of the source, as a [str]. *)
Definition lit (s : string) : str :=
  map N_of_ascii (list_ascii_of_string s).

Definition in_range (c : char) (r : N * N) : bool :=
  ((fst r <=? c) && (c <=? snd r))%N.

(** The code points for which [str.isspace] holds, which are also the ones
    [str.strip()] removes and the ones [\s] matches (Unicode 14). *)
Definition whitespace_ranges : list (N * N) :=
  [ (0x09, 0x0d); (0x1c, 0x20); (0x85, 0x85); (0xa0, 0xa0);
    (0x1680, 0x1680); (0x2000, 0x200a); (0x2028, 0x2029);
    (0x202f, 0x202f); (0x205f, 0x205f); (0x3000, 0x3000) ]%N.

Definition isspace (c : char) : bool :=
  existsb (in_range c) whitespace_ranges.

(** First code point of every run of ten decimal digits (category Nd,
    Unicode 14): the characters [\d] matches in a [str] pattern. *)
Definition decimal_zeros : list N :=
  [ 0x30; 0x660; 0x6f0; 0x7c0; 0x966; 0x9e6; 0xa66; 0xae6; 0xb66; 0xbe6;
    0xc66; 0xce6; 0xd66; 0xde6; 0xe50; 0xed0; 0xf20; 0x1040; 0x1090;
    0x17e0; 0x1810; 0x1946; 0x19d0; 0x1a80; 0x1a90; 0x1b50; 0x1bb0;
    0x1c40; 0x1c50; 0xa620; 0xa8d0; 0xa900; 0xa9d0; 0xa9f0; 0xaa50;
    0xabf0; 0xff10; 0x104a0; 0x10d30; 0x11066; 0x110f0; 0x11136;
    0x111d0; 0x112f0; 0x11450; 0x114d0; 0x11650; 0x116c0; 0x11730;
    0x118e0; 0x11950; 0x11c50; 0x11d50; 0x11da0; 0x16a60; 0x16ac0;
    0x16b50; 0x1d7ce; 0x1d7d8; 0x1d7e2; 0x1d7ec; 0x1d7f6; 0x1e140;
    0x1e2f0; 0x1e950; 0x1fbf0 ]%N.

Definition isdecimal (c : char) : bool :=
  existsb (fun z => in_range c (z, z + 9)%N) decimal_zeros.

Definition dot : char := 0x2e%N.
Definition is_dot (c : char) : bool := (c =? dot)%N.

Definition eqb (a b : str) : bool := bool_decide (a = b).

(** [s.lstrip()], [s.rstrip()], [s.strip()]. *)
Fixpoint lstrip (s : str) : str :=
  match s with
  | [] => []
  | c :: s' => if isspace c then lstrip s' else s
  end.

Definition rstrip (s : str) : str := rev (lstrip (rev s)).

Definition strip (s : str) : str := rstrip (lstrip s).

(** [sub in s], through [s.startswith(sub)] at every position. *)
Fixpoint startswith (s sub : str) : bool :=
  match sub, s with
  | [], _ => true
  | _ :: _, [] => false
  | a :: sub', b :: s' => (a =? b)%N && startswith s' sub'
  end.

Fixpoint contains (sub s : str) : bool :=
  startswith s sub ||
  match s with
  | [] => false
  | _ :: s' => contains sub s'
  end.

(** [s.count('.')]. *)
Fixpoint count_dots (s : str) : Z :=
  match s with
  | [] => 0
  | c :: s' => (if is_dot c then 1 else 0) + count_dots s'
  end.

(** [s.replace('.', '', n)] for a count [n] of replacements still allowed:
    the leftmost [n] decimal points go, the rest of the string stays. *)
Fixpoint drop_dots (n : nat) (s : str) : str :=
  match s with
  | [] => []
  | c :: s' =>
      if is_dot c then
        match n with
        | O => s
        | S n' => drop_dots n' s'
        end
      else c :: drop_dots n s'
  end.

(** [s.replace('.', '', count)]: a negative count replaces every
    occurrence. *)
Definition replace_dot_empty (s : str) (count : Z) : str :=
  if count <? 0 then List.filter (fun c => negb (is_dot c)) s
  else drop_dots (Z.to_nat count) s.

(** [re.sub(r'[^\d.]', '', s)]. *)
Definition sub_non_digit_dot (s : str) : str :=
  List.filter (fun c => isdecimal c || is_dot c) s.

(** The maximal runs of non-whitespace of [s] ([\S+]), in order: how the
    parser splits a multi-valued attribute such as [class]. *)
Fixpoint split_ws (cur : str) (s : str) : list str :=
  match s with
  | [] => match cur with [] => [] | _ => [rev cur] end
  | c :: s' =>
      if isspace c then
        match cur with
        | [] => split_ws [] s'
        | _ => rev cur :: split_ws [] s'
        end
      else split_ws (c :: cur) s'
  end.

(** [sep.join(l)]. *)
Fixpoint join (sep : str) (l : list str) : str :=
  match l with
  | [] => []
  | [x] => x
  | x :: l' => x ++ sep ++ join sep l'
  end.

End PyStr.

Import PyStr.

(** ** The parsed page *)

Module Soup.

(** A node of the tree BeautifulSoup builds: a text leaf, a comment (or
    another string that [.text] leaves out) or a tag with its attribute
    dict and its children.  Attribute values are kept as the page has
    them; the parser splits the value of [class] on whitespace, which
    [class_tokens] does where it is matched. *)
Inductive node :=
| NavigableString (s : str)
| Comment (s : str)
| Tag (name : str) (attrs : gmap str str) (contents : list node).

(** The BeautifulSoup object: the top-level nodes of the document. *)
Definition markup := list node.

(** [tag.descendants]: every node below, in document order. *)
Fixpoint descendants_of (n : node) : list node :=
  match n with
  | Tag _ _ cs =>
      (fix go (l : list node) : list node :=
         match l with
         | [] => []
         | c :: l' => c :: descendants_of c ++ go l'
         end) cs
  | _ => []
  end.

Definition descendants (soup : markup) : list node :=
  flat_map (fun n => n :: descendants_of n) soup.

(** [tag.text]: the text leaves below, concatenated in document order. *)
Fixpoint get_text (n : node) : str :=
  match n with
  | NavigableString s => s
  | Comment _ => []
  | Tag _ _ cs =>
      (fix go (l : list node) : str :=
         match l with
         | [] => []
         | c :: l' => get_text c ++ go l'
         end) cs
  end.

(** [tag.get(key)]. *)
Definition tag_get (n : node) (key : str) : option str :=
  match n with
  | Tag _ attrs _ => attrs !! key
  | _ => None
  end.

Definition class_tokens (v : str) : list str := split_ws [] v.

(** Does the value of attribute [key] match the string [want]?  A plain
    attribute matches by equality.  [class] holds a list: one of its
    items equals [want], or the items joined by one space do. *)
Definition attr_matches (attrs : gmap str str) (key want : str) : bool :=
  match attrs !! key with
  | None => false
  | Some v =>
      if eqb key (lit "class") then
        existsb (fun item => eqb item want) (class_tokens v)
        || eqb (join (lit " ") (class_tokens v)) want
      else eqb v want
  end.

Definition tag_matches (name key want : str) (n : node) : bool :=
  match n with
  | Tag nm attrs _ => eqb nm name && attr_matches attrs key want
  | _ => false
  end.

(** [soup.find_all(name, attrs={key: want})] and [soup.find(...)], which
    is its first element or [None]. *)
Definition find_all (soup : markup) (name key want : str) : list node :=
  filter (fun n => tag_matches name key want n = true) (descendants soup).

Definition find (soup : markup) (name key want : str) : option node :=
  head (find_all soup name key want).

End Soup.

Import Soup.

(** ** Exceptions and state *)

Module Py.

Inductive exn := AttributeError | TypeError | ValueError.

Definition exn_eqb (a b : exn) : bool :=
  match a, b with
  | AttributeError, AttributeError | TypeError, TypeError
  | ValueError, ValueError => true
  | _, _ => false
  end.

Inductive res (A : Type) :=
| Ok (a : A)
| Raise (e : exn).
Arguments Ok {A} a.
Arguments Raise {A} e.

(** A computation over the mutable object [S]: it returns or raises, and
    leaves an [S] behind either way. *)
Definition M (S A : Type) : Type := S -> res A * S.

#[global] Instance M_ret {S} : MRet (M S) := fun A a s => (Ok a, s).

#[global] Instance M_bind {S} : MBind (M S) := fun A B f m s =>
  match m s with
  | (Ok a, s') => f a s'
  | (Raise e, s') => (Raise e, s')
  end.

Definition raise {S A} (e : exn) : M S A := fun s => (Raise e, s).

(** [try: body  except e: handler]; what [body] did to the state before
    it raised stays done. *)
Definition try_except {S A} (body : M S A) (e : exn) (handler : M S A)
  : M S A := fun s =>
  match body s with
  | (Ok a, s') => (Ok a, s')
  | (Raise e', s') =>
      if exn_eqb e' e then handler s' else (Raise e', s')
  end.

(** [for x in xs: body(x)]. *)
Fixpoint for_each {S A} (xs : list A) (body : A -> M S unit) : M S unit :=
  match xs with
  | [] => mret tt
  | x :: xs' => body x ≫= fun _ => for_each xs' body
  end.

Definition modify {S} (f : S -> S) : M S unit := fun s => (Ok tt, f s).

End Py.

Import Py.

(** ** The field extractors *)

(** [soup.find(name, attrs={key: want})] on the page the extractor was
    given, which is the state of the computation. *)
Definition soup_find (name key want : string)
  : M markup (option node) :=
  fun soup => (Ok (find soup (lit name) (lit key) (lit want)), soup).

(** [x.text] where [x] is what [find] returned: [None] has no attribute
    [text]. *)
Definition text {S} (x : option node) : M S str :=
  match x with
  | Some t => mret (get_text t)
  | None => raise AttributeError
  end.

(** The expression [soup.find(name, attrs={key: want}).text.strip()]. *)
Definition find_text_strip (name key want : string) : M markup str :=
  x ← soup_find name key want;
  t ← text x;
  mret (strip t).

Definition get_title : M markup str :=
  try_except
    (find_text_strip "span" "id" "productTitle")
    AttributeError
    (mret (lit "Title not found")).

(** Line 42: [price if price.count('.') <= 1 else
    price.replace('.', '', price.count('.') - 1)]. *)
Definition collapse_dots (price : str) : str :=
  if count_dots price <=? 1 then price
  else replace_dot_empty price (count_dots price - 1).

(** Lines 37 to 42, from the two stripped texts. *)
Definition composite_price (whole_price fraction_price : str) : str :=
  let price := whole_price ++ lit "." ++ fraction_price in
  let price := sub_non_digit_dot price in
  collapse_dots price.

Definition get_price : M markup str :=
  try_except
    (find_text_strip "span" "id" "priceblock_ourprice")
    AttributeError
    (try_except
       (find_text_strip "span" "id" "priceblock_dealprice")
       AttributeError
       (try_except
          (find_text_strip "span" "id" "priceblock_saleprice")
          AttributeError
          (try_except
             (whole_price ← find_text_strip "span" "class" "a-price-whole";
              fraction_price ←
                find_text_strip "span" "class" "a-price-fraction";
              mret (composite_price whole_price fraction_price))
             AttributeError
             (mret (lit "Price not found"))))).

Definition get_rating : M markup str :=
  try_except
    (find_text_strip "span" "class" "a-icon-alt")
    AttributeError
    (mret (lit "Rating not found")).

Definition get_seller_name : M markup str :=
  try_except
    (find_text_strip "a" "id" "sellerProfileTriggerId")
    AttributeError
    (mret (lit "Unknown Seller")).

(** ** Fetching one product page *)

(** The dict [fetch_product_data] returns, with its four fixed keys. *)
Record ProductRecord := {
  product_name : str;
  price : str;
  rating : str;
  seller_name : str
}.

(** Lines 80 to 91: the four extractors run one after the other on the
    same page. *)
Definition extract_record : M markup ProductRecord :=
  title ← get_title;
  price ← get_price;
  rating ← get_rating;
  seller ← get_seller_name;
  mret {| product_name := title; price := price;
          rating := rating; seller_name := seller |}.

(** [fetch_product_data(url, headers)], given what the request of lines
    73 to 77 produced: [None] when it raised a [RequestException], which
    the function catches and turns into a [None] of its own, or the
    parsed page.  Any other exception leaves the function; one raised
    by lines 73 to 77 themselves (the parser refusing the markup) is not
    among the outcomes given here, so nothing below speaks of it. *)
Definition fetch_product_data (response : option markup)
  : res (option ProductRecord) :=
  match response with
  | None => Ok None
  | Some soup =>
      match fst (extract_record soup) with
      | Ok r => Ok (Some r)
      | Raise e => Raise e
      end
  end.

(** ** The link loop of the main block, lines 113 to 121 *)

(** [sub in x], where [x] may be [None]. *)
Definition py_in {S} (sub : str) (x : option str) : M S bool :=
  match x with
  | Some s => mret (contains sub s)
  | None => raise TypeError
  end.

(** [prefix + x], where [x] may be [None]. *)
Definition py_add {S} (prefix : str) (x : option str) : M S str :=
  match x with
  | Some s => mret (prefix ++ s)
  | None => raise TypeError
  end.

(** Truth value of a [str] or [None]. *)
Definition truthy (x : option str) : bool :=
  match x with
  | Some (_ :: _) => true
  | _ => false
  end.

(** The body of the loop; the state is the set [product_links]. *)
Definition add_product_link (link_tag : node) : M (gset str) unit :=
  let link := tag_get link_tag (lit "href") in
  is_product ← (if truthy link then py_in (lit "/dp/") link
                else mret false);
  if (is_product : bool) then
    full_link ← py_add (lit "https://www.amazon.in") link;
    modify (fun product_links => product_links ∪ {[ full_link ]})
  else mret tt.

Definition link_tags (soup : markup) : list node :=
  find_all soup (lit "a") (lit "class") (lit "a-link-normal s-no-outline").

Definition product_links_loop (soup : markup) : M (gset str) unit :=
  for_each (link_tags soup) add_product_link.

(** The set [product_links] after the loop, or the exception that left
    it. *)
Definition product_links (soup : markup) : res (gset str) :=
  match product_links_loop soup ∅ with
  | (Ok _, links) => Ok links
  | (Raise e, _) => Raise e
  end.

(** ** The table, lines 124 to 143 *)

(** The dict of four lists [data]. *)
Record columns := {
  col_product_name : list str;
  col_price : list str;
  col_rating : list str;
  col_seller_name : list str
}.

Definition empty_columns : columns :=
  {| col_product_name := []; col_price := [];
     col_rating := []; col_seller_name := [] |}.

(** Lines 131 to 134. *)
Definition append_record (r : ProductRecord) : M columns unit :=
  modify (fun data =>
    {| col_product_name := col_product_name data ++ [product_name r];
       col_price := col_price data ++ [price r];
       col_rating := col_rating data ++ [rating r];
       col_seller_name := col_seller_name data ++ [seller_name r] |}).

Definition lift {S A} (r : res A) : M S A := fun s => (r, s).

(** Lines 127 to 134, over the responses of the product pages in the
    order the set of links is iterated.  The dict a successful fetch
    returns has four keys, so [if product_data] holds for it and fails
    for [None] only. *)
Definition fetch_loop (responses : list (option markup))
  : M columns unit :=
  for_each responses (fun response =>
    product_data ← lift (fetch_product_data response);
    match product_data with
    | Some r => append_record r
    | None => mret tt
    end).

(** A cell of the frame: a string or NaN. *)
Definition cell := option str.

Record row := {
  Product_Name : cell;
  Price : cell;
  Rating : cell;
  Seller_Name : cell
}.

Definition frame := list row.

Fixpoint zip_rows (a b c d : list str) : frame :=
  match a, b, c, d with
  | x :: a', y :: b', z :: c', w :: d' =>
      {| Product_Name := Some x; Price := Some y;
         Rating := Some z; Seller_Name := Some w |}
      :: zip_rows a' b' c' d'
  | _, _, _, _ => []
  end.

(** [pd.DataFrame(data)]: the lists must have one length. *)
Definition DataFrame (data : columns) : res frame :=
  let n := length (col_product_name data) in
  if (length (col_price data) =? n)%nat
     && (length (col_rating data) =? n)%nat
     && (length (col_seller_name data) =? n)%nat
  then Ok (zip_rows (col_product_name data) (col_price data)
                    (col_rating data) (col_seller_name data))
  else Raise ValueError.

(** [df.replace(old, np.nan)]: in every column. *)
Definition replace_cell (old : str) (c : cell) : cell :=
  match c with
  | Some s => if eqb s old then None else Some s
  | None => None
  end.

Definition replace_nan (old : str) (df : frame) : frame :=
  map (fun r =>
    {| Product_Name := replace_cell old (Product_Name r);
       Price := replace_cell old (Price r);
       Rating := replace_cell old (Rating r);
       Seller_Name := replace_cell old (Seller_Name r) |}) df.

(** [df.dropna(subset=['Product Name'])]. *)
Definition dropna_product_name (df : frame) : frame :=
  filter (fun r => is_Some (Product_Name r)) df.

(** [df.to_csv(..., index=False, header=True)], as the records handed to
    the CSV writer: the header, then one record per row, NaN written as
    the empty string.  The text of the file (quoting, line ends) is the
    writer's and is not part of this. *)
Definition csv_header : list str :=
  [lit "Product Name"; lit "Price"; lit "Rating"; lit "Seller Name"].

Definition csv_fields (r : row) : list str :=
  [default [] (Product_Name r); default [] (Price r);
   default [] (Rating r); default [] (Seller_Name r)].

Definition to_csv (df : frame) : list (list str) :=
  csv_header :: map csv_fields df.

(** Lines 137 to 143. *)
Definition save (data : columns) : res (list (list str)) :=
  match DataFrame data with
  | Ok amazon_df =>
      let amazon_df := replace_nan (lit EmptyString) amazon_df in
      let amazon_df := dropna_product_name amazon_df in
      Ok (to_csv amazon_df)
  | Raise e => Raise e
  end.

(** Lines 124 to 143: what is written to [amazon_data.csv]. *)
Definition amazon_data_csv (responses : list (option markup))
  : res (list (list str)) :=
  match fetch_loop responses empty_columns with
  | (Ok _, data) => save data
  | (Raise e, _) => Raise e
  end.

(** ** A price chain in the words of the specification

    The specification describes [get_price] as an ordered list of
    strategies, each a locator and a transform, of which the first whose
    locator matches produces the result.  These definitions follow that
    description; the theorems below compare [get_price] with them. *)

Module PriceChain.

Inductive strategy := OurPrice | DealPrice | SalePrice | Composite.

Definition priority : list strategy :=
  [OurPrice; DealPrice; SalePrice; Composite].

(** The element a price locator of the source looks for. *)
Definition our_price (soup : markup) : option node :=
  find soup (lit "span") (lit "id") (lit "priceblock_ourprice").
Definition deal_price (soup : markup) : option node :=
  find soup (lit "span") (lit "id") (lit "priceblock_dealprice").
Definition sale_price (soup : markup) : option node :=
  find soup (lit "span") (lit "id") (lit "priceblock_saleprice").
Definition price_whole (soup : markup) : option node :=
  find soup (lit "span") (lit "class") (lit "a-price-whole").
Definition price_fraction (soup : markup) : option node :=
  find soup (lit "span") (lit "class") (lit "a-price-fraction").

Definition trimmed_text (t : node) : str := strip (get_text t).

(** What a strategy yields on a page: nothing when its locator does not
    match, its transform of the located element(s) otherwise. *)
Definition outcome (s : strategy) (soup : markup) : option str :=
  match s with
  | OurPrice => trimmed_text <$> our_price soup
  | DealPrice => trimmed_text <$> deal_price soup
  | SalePrice => trimmed_text <$> sale_price soup
  | Composite =>
      match price_whole soup, price_fraction soup with
      | Some w, Some f =>
          Some (composite_price (trimmed_text w) (trimmed_text f))
      | _, _ => None
      end
  end.

(** A decimal point stays exactly when none stands before it. *)
Fixpoint keep_first_dot_from (seen : bool) (s : str) : str :=
  match s with
  | [] => []
  | c :: s' =>
      if is_dot c then
        if seen then keep_first_dot_from true s'
        else c :: keep_first_dot_from true s'
      else c :: keep_first_dot_from seen s'
  end.

Definition keep_first_dot (s : str) : str := keep_first_dot_from false s.

(** A decimal point stays exactly when none follows it. *)
Fixpoint keep_last_dot (s : str) : str :=
  match s with
  | [] => []
  | c :: s' =>
      if is_dot c && existsb is_dot s' then keep_last_dot s'
      else c :: keep_last_dot s'
  end.

(** Only decimal digits and decimal points. *)
Definition digits_and_dots (s : str) : bool :=
  forallb (fun c => isdecimal c || is_dot c) s.

End PriceChain.

Import PriceChain.

(** ** Summaries used in the statements *)

(** [get_price] as a function of what the five locators find. *)
Definition price_of (soup : markup) : str :=
  match our_price soup with
  | Some t => trimmed_text t
  | None =>
    match deal_price soup with
    | Some t => trimmed_text t
    | None =>
      match sale_price soup with
      | Some t => trimmed_text t
      | None =>
        match price_whole soup, price_fraction soup with
        | Some w, Some f =>
            composite_price (trimmed_text w) (trimmed_text f)
        | _, _ => lit "Price not found"
        end
      end
    end
  end.

(** The target of a product card link: the [href] of an anchor the loop
    keeps. *)
Definition product_href (link_tag : node) : option str :=
  match tag_get link_tag (lit "href") with
  | Some link => if contains (lit "/dp/") link then Some link else None
  | None => None
  end.

(** The targets of the matching anchors of a search page, in document
    order, one per anchor. *)
Definition product_hrefs (soup : markup) : list str :=
  omap product_href (link_tags soup).

Definition full_link (link : str) : str :=
  lit "https://www.amazon.in" ++ link.

(** The columns after the records were appended one by one to the empty
    ones, lines 124 and 131 to 134. *)
Definition accumulate (records : list ProductRecord) : columns :=
  snd (for_each records append_record empty_columns).

Definition record_fields (r : ProductRecord) : list str :=
  [product_name r; price r; rating r; seller_name r].

Definition row_of_record (r : ProductRecord) : row :=
  {| Product_Name := Some (product_name r); Price := Some (price r);
     Rating := Some (rating r); Seller_Name := Some (seller_name r) |}.

(** The record the four extractors build from a page, and the records of
    the pages that were fetched, in the order of the loop. *)
Definition record_of (soup : markup) : ProductRecord :=
  {| product_name :=
       from_option trimmed_text (lit "Title not found")
         (find soup (lit "span") (lit "id") (lit "productTitle"));
     price := price_of soup;
     rating :=
       from_option trimmed_text (lit "Rating not found")
         (find soup (lit "span") (lit "class") (lit "a-icon-alt"));
     seller_name :=
       from_option trimmed_text (lit "Unknown Seller")
         (find soup (lit "a") (lit "id") (lit "sellerProfileTriggerId")) |}.

Definition fetched_records (responses : list (option markup))
  : list ProductRecord :=
  record_of <$> omap id responses.

(** ** Example pages *)

Module Examples.

#[local] Open Scope string_scope.

Definition span (key value : string) (contents : list node) : node :=
  Tag (lit "span") {[ lit key := lit value ]} contents.

Definition anchor (attrs : list (string * string)) : node :=
  Tag (lit "a")
      (list_to_map (map (fun kv => (lit (fst kv), lit (snd kv))) attrs))
      [].

Definition deal_span : node :=
  span "id" "priceblock_dealprice" [NavigableString (lit " 1,299.00 ")].

(** A product page whose only price element is the deal price. *)
Definition deal_only_page : markup :=
  [ Tag (lit "div") ∅
      [ span "id" "productTitle" [NavigableString (lit " Kettle ")];
        Comment (lit "price");
        deal_span ] ].

(** A product page with the composite price elements only, and no
    title. *)
Definition composite_page : markup :=
  [ Tag (lit "div") ∅
      [ span "class" "a-price-whole"
          [NavigableString (lit "12.99")];
        span "class" "a-price-fraction" [NavigableString (lit "00")] ] ].

(** A page with every price element. *)
Definition all_prices_page : markup :=
  [ span "class" "a-price-whole" [NavigableString (lit "7")];
    span "class" "a-price-fraction" [NavigableString (lit "50")];
    span "id" "priceblock_saleprice" [NavigableString (lit "S")];
    span "id" "priceblock_dealprice" [NavigableString (lit "D")];
    span "id" "priceblock_ourprice" [NavigableString (lit "O")] ].

(** A page with every price element but the first. *)
Definition later_prices_page : markup := take 4 all_prices_page.

(** A page with none of them. *)
Definition bare_page : markup :=
  [ Tag (lit "p") ∅ [NavigableString (lit "nothing here")] ].

Definition card (href : string) : node :=
  anchor [("class", "a-link-normal s-no-outline"); ("href", href)].

(** An anchor of the card class without a target. *)
Definition card_without_href : node :=
  anchor [("class", "a-link-normal s-no-outline")].

(** Three records: one with a name, one with the sentinel and one with
    an empty name. *)
Definition named_record : ProductRecord :=
  {| product_name := lit "Kettle"; price := lit "1,299.00";
     rating := lit "4.2 out of 5 stars"; seller_name := lit EmptyString |}.
Definition untitled_record : ProductRecord :=
  {| product_name := lit "Title not found"; price := lit "1299.00";
     rating := lit "Rating not found"; seller_name := lit "Unknown Seller" |}.
Definition nameless_record : ProductRecord :=
  {| product_name := lit EmptyString; price := lit "5.00";
     rating := lit "3"; seller_name := lit "Shop" |}.

(** A search page: two cards for one product, a link without target and
    a link that is no product link. *)
Definition search_page : markup :=
  [ Tag (lit "div") ∅
      [ card "/dp/ABC123?ref=x";
        card_without_href;
        card "/gp/help";
        anchor [("class", "a-link-normal"); ("href", "/dp/OTHER")];
        card "/dp/ABC123?ref=x" ] ].

End Examples.

(** ** Further summaries *)

(** Neither the first nor the last character of [s] is whitespace. *)
Definition trimmed (s : str) : bool :=
  negb (from_option isspace false (head s))
  && negb (from_option isspace false (last s)).

(** The decimal digits of a string, in order. *)
Definition digits_of (s : str) : str := List.filter isdecimal s.

(** Two ranges of code points with a common point. *)
Definition overlap (r1 r2 : N * N) : bool :=
  ((fst r1 <=? snd r2) && (fst r2 <=? snd r1))%N.

(** No character of [s] is whitespace. *)
Definition space_free (s : str) : bool :=
  forallb (fun c => negb (isspace c)) s.

(** The class attribute line 115 asks for, and its two classes. *)
Definition card_class : str := lit "a-link-normal s-no-outline".
Definition card_classes : list str :=
  [lit "a-link-normal"; lit "s-no-outline"].

(** A record with a name, the ones line 141 keeps. *)
Definition named (r : ProductRecord) : Prop :=
  product_name r <> lit EmptyString.

(** The prefix of line 120. *)
Definition origin : str := lit "https://www.amazon.in".

(** The data rows of a written table, without the header. *)
Definition data_rows (written : res (list (list str))) : list (list str) :=
  match written with
  | Ok rows => tail rows
  | Raise _ => []
  end.

Module MoreExamples.

Import Examples.

#[local] Open Scope string_scope.

Definition title_span : node :=
  span "id" "productTitle" [NavigableString (lit "  Steel Kettle ")].
Definition rating_span : node :=
  span "class" "a-icon-alt" [NavigableString (lit "4.2 out of 5 stars")].
Definition seller_anchor : node :=
  Tag (lit "a") {[ lit "id" := lit "sellerProfileTriggerId" ]}
      [NavigableString (lit " Acme Retail ")].

(** A product page with every field, the price in the composite form the
    site uses: the whole part carries its own decimal point. *)
Definition full_page : markup :=
  [ Tag (lit "div") ∅
      [ title_span;
        span "class" "a-price-whole"
          [NavigableString (lit "1,299");
           span "class" "a-price-decimal" [NavigableString (lit ".")]];
        span "class" "a-price-fraction" [NavigableString (lit "00")];
        rating_span;
        seller_anchor ] ].

(** A product page whose title element holds whitespace only. *)
Definition blank_title_page : markup :=
  [ span "id" "productTitle" [NavigableString (lit "   ")];
    span "id" "priceblock_ourprice" [NavigableString (lit "10")] ].

Definition blank_price_span : node :=
  span "id" "priceblock_ourprice" [NavigableString (lit "  ")].

(** A product page whose first price element is empty, with a filled one
    after it. *)
Definition empty_price_page : markup :=
  [ blank_price_span;
    span "id" "priceblock_dealprice" [NavigableString (lit "15.00")] ].

(** A search page with three cards for two products. *)
Definition two_product_page : markup :=
  [ card "/dp/ABC123?ref=x"; card "/dp/ABC123?ref=y";
    card "/dp/ABC123?ref=x"; card "/gp/help" ].

(** Anchors whose class attribute has more than, or less than, the two
    classes of a card, and one with whitespace around them. *)
Definition card_with_extra_class : node :=
  anchor [("class", "a-link-normal s-no-outline extra");
          ("href", "/dp/EXTRA")].
Definition card_with_spaces : node :=
  anchor [("class", "  a-link-normal   s-no-outline ");
          ("href", "/dp/SPACED")].

End MoreExamples.

(** ** Running the extractors *)

Section Running.

Implicit Types (soup : markup) (s : str).

Lemma find_text_strip_run (name key want : string) soup :
  find_text_strip name key want soup =
  match find soup (lit name) (lit key) (lit want) with
  | Some t => (Ok (trimmed_text t), soup)
  | None => (Raise AttributeError, soup)
  end.
Proof.
  unfold find_text_strip, soup_find, mbind, M_bind, text.
  destruct (find soup (lit name) (lit key) (lit want)); reflexivity.
Qed.

(** An extractor of one step: the trimmed text of the element, or the
    sentinel. *)
Lemma one_step_run (name key want : string) (sentinel : str) soup :
  try_except (find_text_strip name key want) AttributeError
             (mret sentinel) soup =
  (Ok (from_option trimmed_text sentinel
         (find soup (lit name) (lit key) (lit want))), soup).
Proof.
  unfold try_except. rewrite find_text_strip_run.
  destruct (find soup (lit name) (lit key) (lit want)); reflexivity.
Qed.

Lemma get_price_run soup : get_price soup = (Ok (price_of soup), soup).
Proof.
  unfold get_price, price_of.
  unfold try_except at 1. rewrite find_text_strip_run.
  change (find soup _ _ _) with (our_price soup).
  destruct (our_price soup); [reflexivity|]. simpl.
  unfold try_except at 1. rewrite find_text_strip_run.
  change (find soup _ _ _) with (deal_price soup).
  destruct (deal_price soup); [reflexivity|]. simpl.
  unfold try_except at 1. rewrite find_text_strip_run.
  change (find soup _ _ _) with (sale_price soup).
  destruct (sale_price soup); [reflexivity|]. simpl.
  unfold try_except, mbind, M_bind. rewrite find_text_strip_run.
  change (find soup _ _ _) with (price_whole soup).
  destruct (price_whole soup); [|reflexivity].
  rewrite find_text_strip_run.
  change (find soup _ _ _) with (price_fraction soup).
  destruct (price_fraction soup); reflexivity.
Qed.

Lemma get_title_run soup :
  get_title soup =
  (Ok (from_option trimmed_text (lit "Title not found")
         (find soup (lit "span") (lit "id") (lit "productTitle"))), soup).
Proof. apply one_step_run. Qed.

Lemma get_rating_run soup :
  get_rating soup =
  (Ok (from_option trimmed_text (lit "Rating not found")
         (find soup (lit "span") (lit "class") (lit "a-icon-alt"))), soup).
Proof. apply one_step_run. Qed.

Lemma get_seller_name_run soup :
  get_seller_name soup =
  (Ok (from_option trimmed_text (lit "Unknown Seller")
         (find soup (lit "a") (lit "id") (lit "sellerProfileTriggerId"))),
   soup).
Proof. apply one_step_run. Qed.

End Running.

(** ** Decimal points *)

Section Dots.

Implicit Types (s : str) (c : char).

Lemma count_dots_nonneg s : 0 <= count_dots s.
Proof. induction s as [|c s IH]; simpl; [lia|]. destruct (is_dot c); lia. Qed.

Lemma count_dots_zero s : existsb is_dot s = false <-> count_dots s = 0.
Proof.
  induction s as [|c s IH]; simpl; [tauto|].
  pose proof (count_dots_nonneg s).
  destruct (is_dot c); simpl; [split; [discriminate|lia]|].
  rewrite IH. split; lia.
Qed.

Lemma drop_dots_0 s : drop_dots 0 s = s.
Proof.
  induction s as [|c s IH]; simpl; [reflexivity|].
  destruct (is_dot c); [reflexivity|]. by rewrite IH.
Qed.

Lemma keep_last_dot_no_dot s : existsb is_dot s = false -> keep_last_dot s = s.
Proof.
  induction s as [|c s IH]; simpl; [reflexivity|].
  destruct (is_dot c); simpl; [discriminate|].
  intros H. by rewrite IH.
Qed.

(** Dropping all decimal points but one, from the left, leaves the last
    one. *)
Lemma drop_dots_keep_last s :
  drop_dots (Z.to_nat (count_dots s - 1)) s = keep_last_dot s.
Proof.
  induction s as [|c s IH]; simpl; [reflexivity|].
  pose proof (count_dots_nonneg s) as Hnn.
  destruct (is_dot c) eqn:Hc; simpl.
  - destruct (existsb is_dot s) eqn:Hd.
    + assert (count_dots s <> 0) as Hnz.
      { intros Hz. apply count_dots_zero in Hz. congruence. }
      replace (Z.to_nat (1 + count_dots s - 1))
        with (S (Z.to_nat (count_dots s - 1))) by lia.
      exact IH.
    + pose proof Hd as Hz. apply count_dots_zero in Hz.
      rewrite Hz. simpl. by rewrite keep_last_dot_no_dot.
  - replace (0 + count_dots s - 1) with (count_dots s - 1) by lia.
    by rewrite IH.
Qed.

Lemma collapse_dots_keep_last s : collapse_dots s = keep_last_dot s.
Proof.
  unfold collapse_dots, replace_dot_empty.
  destruct (Z.leb_spec (count_dots s) 1) as [Hle|Hgt].
  - rewrite <- drop_dots_keep_last.
    replace (Z.to_nat (count_dots s - 1)) with O by lia.
    by rewrite drop_dots_0.
  - destruct (Z.ltb_spec (count_dots s - 1) 0); [lia|].
    apply drop_dots_keep_last.
Qed.

Lemma count_dots_keep_last s : count_dots (keep_last_dot s) <= 1.
Proof.
  induction s as [|c s IH]; simpl; [lia|].
  destruct (is_dot c) eqn:Hc; simpl.
  - destruct (existsb is_dot s) eqn:Hd; [exact IH|].
    simpl. rewrite Hc, keep_last_dot_no_dot by exact Hd.
    apply count_dots_zero in Hd. lia.
  - rewrite Hc. lia.
Qed.

Lemma digits_and_dots_keep_last s :
  digits_and_dots s = true -> digits_and_dots (keep_last_dot s) = true.
Proof.
  unfold digits_and_dots.
  induction s as [|c s IH]; simpl; [done|].
  intros [Hc Hs]%andb_prop.
  destruct (is_dot c && existsb is_dot s); simpl; [by apply IH|].
  by rewrite Hc, IH.
Qed.

Lemma digits_and_dots_sub s : digits_and_dots (sub_non_digit_dot s) = true.
Proof.
  unfold digits_and_dots, sub_non_digit_dot.
  induction s as [|c s IH]; simpl; [done|].
  destruct (isdecimal c || is_dot c) eqn:Hc; simpl; [|exact IH].
  by rewrite Hc, IH.
Qed.

Lemma composite_price_shape whole fraction :
  digits_and_dots (composite_price whole fraction) = true
  /\ count_dots (composite_price whole fraction) <= 1.
Proof.
  unfold composite_price. rewrite collapse_dots_keep_last. split.
  - apply digits_and_dots_keep_last, digits_and_dots_sub.
  - apply count_dots_keep_last.
Qed.

End Dots.

(** ** The link loop *)

Section Links.

Implicit Types (soup : markup) (links : gset str).

Lemma add_product_link_run (link_tag : node) links :
  add_product_link link_tag links =
  (Ok tt, match product_href link_tag with
          | Some link => links ∪ {[ full_link link ]}
          | None => links
          end).
Proof.
  unfold add_product_link, product_href, mbind, M_bind.
  destruct (tag_get link_tag (lit "href")) as [[|c link]|];
    [reflexivity| |reflexivity].
  unfold truthy, py_in, py_add, mret, M_ret.
  destruct (contains (lit "/dp/") (c :: link)); reflexivity.
Qed.

Lemma for_each_add_product_link (tags : list node) links :
  for_each tags add_product_link links =
  (Ok tt, links ∪ list_to_set (full_link <$> omap product_href tags)).
Proof.
  revert links. induction tags as [|t tags IH]; intros links; simpl.
  - unfold mret, M_ret. by rewrite union_empty_r_L.
  - unfold mbind, M_bind. rewrite add_product_link_run, IH.
    destruct (product_href t); simpl; [|done].
    by rewrite (assoc_L (∪)).
Qed.

Lemma product_links_run soup :
  product_links soup = Ok (list_to_set (full_link <$> product_hrefs soup)).
Proof.
  unfold product_links, product_links_loop, product_hrefs.
  rewrite for_each_add_product_link. by rewrite union_empty_l_L.
Qed.

Lemma list_to_set_replicate (n : nat) (x : str) :
  (0 < n)%nat -> list_to_set (replicate n x) =@{gset str} {[ x ]}.
Proof.
  induction n as [|n IH]; [lia|]. intros _. simpl.
  destruct n as [|n]; [apply union_empty_r_L|].
  rewrite IH by lia. apply union_idemp_L.
Qed.

End Links.

(** ** The table *)

Section Table.

Implicit Types (r : ProductRecord) (records : list ProductRecord).

Lemma for_each_append_record records (data : columns) :
  for_each records append_record data =
  (Ok tt,
   {| col_product_name := col_product_name data ++ map product_name records;
      col_price := col_price data ++ map price records;
      col_rating := col_rating data ++ map rating records;
      col_seller_name := col_seller_name data ++ map seller_name records |}).
Proof.
  revert data. induction records as [|r records IH]; intros data; simpl.
  - rewrite !app_nil_r. by destruct data.
  - unfold mbind, M_bind, append_record, modify at 1. rewrite IH. simpl.
    by rewrite <- !app_assoc.
Qed.

Lemma accumulate_columns records :
  accumulate records =
  {| col_product_name := map product_name records;
     col_price := map price records;
     col_rating := map rating records;
     col_seller_name := map seller_name records |}.
Proof. unfold accumulate. by rewrite for_each_append_record. Qed.

Lemma zip_rows_records records :
  zip_rows (map product_name records) (map price records)
           (map rating records) (map seller_name records)
  = map row_of_record records.
Proof. induction records as [|r records IH]; simpl; [done|]. by rewrite IH. Qed.

Lemma DataFrame_accumulate records :
  DataFrame (accumulate records) = Ok (map row_of_record records).
Proof.
  rewrite accumulate_columns. unfold DataFrame. simpl.
  rewrite !length_map, Nat.eqb_refl. simpl. by rewrite zip_rows_records.
Qed.

Lemma default_replace_cell (s : str) :
  default [] (replace_cell (lit EmptyString) (Some s)) = s.
Proof.
  unfold replace_cell, eqb. case_bool_decide as H; simpl; [|done].
  by rewrite H.
Qed.

Lemma written_rows records :
  map csv_fields
      (dropna_product_name (replace_nan (lit EmptyString) (map row_of_record records)))
  = map record_fields
        (filter (fun r => product_name r <> lit EmptyString) records).
Proof.
  unfold dropna_product_name, replace_nan.
  induction records as [|r records IH]; simpl; [done|].
  rewrite (filter_cons (fun r0 : row => is_Some (Product_Name r0))).
  rewrite (filter_cons (fun r0 => product_name r0 <> lit EmptyString)).
  simpl. fold (replace_cell (lit EmptyString) (Some (product_name r))).
  fold (replace_cell (lit EmptyString) (Some (price r))).
  fold (replace_cell (lit EmptyString) (Some (rating r))).
  fold (replace_cell (lit EmptyString) (Some (seller_name r))).
  destruct (decide (product_name r <> lit EmptyString)) as [Hname|Hempty].
  - destruct (decide (is_Some (replace_cell (lit EmptyString) (Some (product_name r)))))
      as [_|Hnone].
    + simpl. f_equal; [|exact IH].
      unfold csv_fields, record_fields. simpl.
      repeat f_equal; exact (default_replace_cell _).
    + exfalso. apply Hnone. unfold replace_cell, eqb.
      rewrite (bool_decide_eq_false_2 (product_name r = lit EmptyString)) by done.
      by eexists.
  - apply dec_stable in Hempty.
    destruct (decide (is_Some (replace_cell (lit EmptyString) (Some (product_name r)))))
      as [Hsome|_]; [|exact IH].
    exfalso. revert Hsome. unfold replace_cell, eqb.
    rewrite (bool_decide_eq_true_2 (product_name r = lit EmptyString)) by done.
    apply is_Some_None.
Qed.

Lemma save_accumulate records :
  save (accumulate records) =
  Ok (csv_header
      :: map record_fields
           (filter (fun r => product_name r <> lit EmptyString) records)).
Proof.
  unfold save. rewrite DataFrame_accumulate. unfold to_csv.
  by rewrite written_rows.
Qed.

End Table.

(** ** From the responses to the table *)

Section Fetching.

Lemma extract_record_run (soup : markup) :
  extract_record soup = (Ok (record_of soup), soup).
Proof.
  unfold extract_record, mbind, M_bind.
  by rewrite get_title_run, get_price_run, get_rating_run,
    get_seller_name_run.
Qed.

Lemma fetch_loop_run (responses : list (option markup)) (data : columns) :
  fetch_loop responses data =
  for_each (fetched_records responses) append_record data.
Proof.
  unfold fetch_loop, fetched_records. revert data.
  induction responses as [|[soup|] responses IH]; intros data; simpl.
  - reflexivity.
  - unfold mbind, M_bind, lift, fetch_product_data at 1.
    rewrite extract_record_run. simpl.
    destruct (append_record (record_of soup) data) as [[[]|e] data'] eqn:Ha;
      [apply IH|discriminate].
  - unfold mbind, M_bind, lift at 1. simpl. apply IH.
Qed.

Lemma amazon_data_csv_run (responses : list (option markup)) :
  amazon_data_csv responses = save (accumulate (fetched_records responses)).
Proof.
  unfold amazon_data_csv, accumulate. rewrite fetch_loop_run.
  by rewrite for_each_append_record.
Qed.

End Fetching.

(** ** The properties of the specification *)

Import Examples.

(** C1. The specification has every row whose name is the sentinel
    ["Title not found"] removed before the table is written.  On one
    fetched page without a title element the written table keeps the row:
    only an empty name becomes NaN and is dropped. *)
Theorem sentinel_title_row_is_written :
  amazon_data_csv [Some composite_page] =
  Ok [ csv_header;
       [ lit "Title not found"; lit "1299.00";
         lit "Rating not found"; lit "Unknown Seller" ] ].
Proof. vm_compute. reflexivity. Qed.

(** C2, as stated: the composite step keeps only the first decimal point,
    so that ["12.99.00"] becomes ["12.9900"].  It does not: from the whole
    part ["12.99"] and the fraction ["00"], which concatenate to
    ["12.99.00"], the source produces ["1299.00"]. *)
Lemma composite_price_keeps_first_dot_fails :
  sub_non_digit_dot (lit "12.99" ++ lit "." ++ lit "00") = lit "12.99.00"
  /\ composite_price (lit "12.99") (lit "00") <> lit "12.9900"
  /\ composite_price (lit "12.99") (lit "00")
     <> keep_first_dot
          (sub_non_digit_dot (lit "12.99" ++ lit "." ++ lit "00")).
Proof. vm_compute. repeat split; discriminate. Qed.

(** C2, amended: after concatenating the whole and fraction parts and
    stripping every character that is neither a digit nor a decimal
    point, extra decimal points are collapsed by keeping only the last
    occurrence; for an input producing ["12.99.00"] the result is
    ["1299.00"]. *)
Theorem composite_price_keeps_last_dot :
  (forall whole_price fraction_price : str,
     composite_price whole_price fraction_price =
     keep_last_dot
       (sub_non_digit_dot (whole_price ++ lit "." ++ fraction_price)))
  /\ composite_price (lit "12.99") (lit "00") = lit "1299.00".
Proof.
  split; [|vm_compute; reflexivity].
  intros whole_price fraction_price. unfold composite_price.
  apply collapse_dots_keep_last.
Qed.

(** C3. On a page with the two composite price elements and none of the
    three identifier elements, [get_price] returns a string of decimal
    digits and decimal points only, with at most one decimal point. *)
Theorem get_price_composite_shape (soup : markup) (w f : node) :
  our_price soup = None ->
  deal_price soup = None ->
  sale_price soup = None ->
  price_whole soup = Some w ->
  price_fraction soup = Some f ->
  exists p : str,
    get_price soup = (Ok p, soup)
    /\ digits_and_dots p = true
    /\ count_dots p <= 1.
Proof.
  intros Ho Hd Hs Hw Hf.
  exists (composite_price (trimmed_text w) (trimmed_text f)).
  split; [|apply composite_price_shape].
  rewrite get_price_run. unfold price_of. by rewrite Ho, Hd, Hs, Hw, Hf.
Qed.

Lemma get_price_composite_shape_witness :
  exists p : str,
    get_price composite_page = (Ok p, composite_page)
    /\ digits_and_dots p = true
    /\ count_dots p <= 1.
Proof.
  eapply (get_price_composite_shape composite_page); reflexivity.
Defined.

(** C4. On a page with none of the four price patterns (no identifier
    element, and not both composite elements) [get_price] returns exactly
    ["Price not found"]. *)
Theorem get_price_not_found (soup : markup) :
  our_price soup = None ->
  deal_price soup = None ->
  sale_price soup = None ->
  price_whole soup = None \/ price_fraction soup = None ->
  get_price soup = (Ok (lit "Price not found"), soup).
Proof.
  intros Ho Hd Hs Hc. rewrite get_price_run. unfold price_of.
  rewrite Ho, Hd, Hs. destruct Hc as [Hw|Hf].
  - by rewrite Hw.
  - rewrite Hf. by destruct (price_whole soup).
Qed.

Lemma get_price_not_found_witness :
  get_price bare_page = (Ok (lit "Price not found"), bare_page).
Proof.
  apply (get_price_not_found bare_page);
    [reflexivity|reflexivity|reflexivity|left; reflexivity].
Defined.

(** C5. [get_price] follows the priority order our price, deal price,
    sale price, composite: the result is the outcome of the first
    strategy of that order whose locator matches, whatever the later
    strategies would find. *)
Theorem get_price_first_match
    (soup : markup) (i : nat) (s : strategy) (p : str) :
  priority !! i = Some s ->
  outcome s soup = Some p ->
  (forall (j : nat) (s' : strategy),
     (j < i)%nat -> priority !! j = Some s' -> outcome s' soup = None) ->
  get_price soup = (Ok p, soup).
Proof.
  intros Hi Hout He. rewrite get_price_run. unfold price_of.
  destruct i as [|[|[|[|i]]]]; simpl in Hi; try discriminate;
    injection Hi as <-; simpl in Hout.
  - destruct (our_price soup); [|discriminate].
    by injection Hout as <-.
  - pose proof (He 0%nat OurPrice ltac:(lia) eq_refl) as H0. simpl in H0.
    destruct (our_price soup); [discriminate|].
    destruct (deal_price soup); [|discriminate].
    by injection Hout as <-.
  - pose proof (He 0%nat OurPrice ltac:(lia) eq_refl) as H0.
    pose proof (He 1%nat DealPrice ltac:(lia) eq_refl) as H1.
    simpl in H0, H1.
    destruct (our_price soup); [discriminate|].
    destruct (deal_price soup); [discriminate|].
    destruct (sale_price soup); [|discriminate].
    by injection Hout as <-.
  - pose proof (He 0%nat OurPrice ltac:(lia) eq_refl) as H0.
    pose proof (He 1%nat DealPrice ltac:(lia) eq_refl) as H1.
    pose proof (He 2%nat SalePrice ltac:(lia) eq_refl) as H2.
    simpl in H0, H1, H2.
    destruct (our_price soup); [discriminate|].
    destruct (deal_price soup); [discriminate|].
    destruct (sale_price soup); [discriminate|].
    destruct (price_whole soup); [|discriminate].
    destruct (price_fraction soup); [|discriminate].
    by injection Hout as <-.
Qed.

Lemma get_price_first_match_witness :
  get_price later_prices_page = (Ok (lit "D"), later_prices_page).
Proof.
  apply (get_price_first_match later_prices_page 1 DealPrice (lit "D")).
  - reflexivity.
  - reflexivity.
  - intros j s' Hj Hs'. destruct j as [|j]; [|lia].
    injection Hs' as <-. reflexivity.
Defined.

(** C6. On a page where the deal price element is the only price
    pattern, [get_price] returns the text of that element with leading and
    trailing whitespace removed and nothing else changed; the text
    [" 1,299.00 "] gives exactly ["1,299.00"]. *)
Theorem get_price_deal_only :
  (forall (soup : markup) (t : node),
     our_price soup = None ->
     deal_price soup = Some t ->
     sale_price soup = None ->
     price_whole soup = None ->
     price_fraction soup = None ->
     get_price soup = (Ok (strip (get_text t)), soup))
  /\ deal_price deal_only_page = Some deal_span
  /\ get_text deal_span = lit " 1,299.00 "
  /\ get_price deal_only_page = (Ok (lit "1,299.00"), deal_only_page).
Proof.
  split; [|vm_compute; by repeat split].
  intros soup t Ho Hd _ _ _. rewrite get_price_run. unfold price_of.
  by rewrite Ho, Hd.
Qed.

Lemma get_price_deal_only_witness :
  get_price deal_only_page =
  (Ok (strip (get_text deal_span)), deal_only_page).
Proof.
  apply (proj1 get_price_deal_only deal_only_page deal_span); reflexivity.
Defined.

(** C7. The links collected are the set of the targets of the matching
    anchors, each prefixed with the site's origin and compared as
    strings.  A search page without matching anchors gives the empty set;
    a page whose [N >= 1] matching anchors all have the same target gives
    a set of size one. *)
Theorem product_links_empty_or_single (soup : markup) :
  product_links soup = Ok (list_to_set (full_link <$> product_hrefs soup))
  /\ (product_hrefs soup = [] -> product_links soup = Ok ∅)
  /\ (forall (N : nat) (link : str),
        (0 < N)%nat ->
        product_hrefs soup = replicate N link ->
        exists links : gset str,
          product_links soup = Ok links
          /\ links = {[ full_link link ]}
          /\ size links = 1%nat).
Proof.
  split; [apply product_links_run|split].
  - intros Hnone. rewrite product_links_run, Hnone. reflexivity.
  - intros N link HN Hsame. exists {[ full_link link ]}.
    split; [|split; [reflexivity|apply size_singleton]].
    rewrite product_links_run, Hsame, fmap_replicate.
    by rewrite list_to_set_replicate.
Qed.

Lemma product_links_empty_or_single_witness :
  product_links bare_page = Ok ∅
  /\ exists links : gset str,
       product_links search_page = Ok links
       /\ links = {[ full_link (lit "/dp/ABC123?ref=x") ]}
       /\ size links = 1%nat.
Proof.
  split.
  - apply (proj1 (proj2 (product_links_empty_or_single bare_page))).
    reflexivity.
  - apply (proj2 (proj2 (product_links_empty_or_single search_page)) 2%nat);
      [lia|reflexivity].
Defined.

(** C8. The link loop never raises: on every page, from every set, it
    ends normally with a set of links; an anchor without [href] leaves
    the set as it was. *)
Theorem product_links_never_raises :
  (forall (soup : markup) (links0 : gset str),
     exists links : gset str,
       product_links_loop soup links0 = (Ok tt, links))
  /\ (forall soup : markup,
        exists links : gset str, product_links soup = Ok links)
  /\ (forall (link_tag : node) (links : gset str),
        tag_get link_tag (lit "href") = None ->
        add_product_link link_tag links = (Ok tt, links)).
Proof.
  split; [|split].
  - intros soup links0. unfold product_links_loop.
    rewrite for_each_add_product_link. by eexists.
  - intros soup. rewrite product_links_run. by eexists.
  - intros link_tag links Hnone. rewrite add_product_link_run.
    unfold product_href. by rewrite Hnone.
Qed.

Lemma product_links_never_raises_witness :
  add_product_link card_without_href ∅ = (Ok tt, ∅).
Proof.
  apply (proj2 (proj2 product_links_never_raises) card_without_href ∅).
  reflexivity.
Defined.

(** C10. The filter before the table is written removes exactly the rows
    whose Product Name is the empty string; every row with any other
    name, the sentinel ["Title not found"] included, is written, with its
    four fields.  The table of a run is the accumulation of the records
    of the fetched pages. *)
Theorem save_drops_exactly_empty_names (records : list ProductRecord) :
  save (accumulate records) =
    Ok (csv_header
        :: map record_fields
             (filter (fun r => product_name r <> lit EmptyString) records))
  /\ (forall responses : list (option markup),
        amazon_data_csv responses =
        save (accumulate (fetched_records responses)))
  /\ (forall r : ProductRecord,
        r ∈ records ->
        product_name r = lit "Title not found" ->
        exists written : list (list str),
          save (accumulate records) = Ok written
          /\ record_fields r ∈ tail written).
Proof.
  split; [apply save_accumulate|split; [apply amazon_data_csv_run|]].
  intros r Hin Hname. rewrite save_accumulate. eexists. split; [done|].
  simpl. apply list_elem_of_fmap. exists r. split; [done|].
  apply list_elem_of_filter. split; [|done].
  rewrite Hname. discriminate.
Qed.

Lemma save_drops_exactly_empty_names_witness :
  exists written : list (list str),
    save (accumulate [named_record; untitled_record; nameless_record])
    = Ok written
    /\ record_fields untitled_record ∈ tail written.
Proof.
  apply (proj2 (proj2 (save_drops_exactly_empty_names
                         [named_record; untitled_record; nameless_record]))
               untitled_record).
  - apply list_elem_of_further, list_elem_of_here.
  - reflexivity.
Defined.

(** ** Further properties of the code *)

Import MoreExamples.

(** *** Trimming *)

Section Strip.

Implicit Types (s : str) (c : char).

Lemma lstrip_head s : from_option isspace false (head (lstrip s)) = false.
Proof.
  induction s as [|c s IH]; simpl; [done|].
  destruct (isspace c) eqn:Hc; [exact IH|]. simpl. exact Hc.
Qed.

Lemma lstrip_snoc s c :
  isspace c = false -> lstrip (s ++ [c]) = lstrip s ++ [c].
Proof.
  intros Hc. induction s as [|x s IH]; simpl.
  - by rewrite Hc.
  - destruct (isspace x); [exact IH|done].
Qed.

Lemma lstrip_all_space s : forallb isspace s = true -> lstrip s = [].
Proof.
  induction s as [|c s IH]; simpl; [done|].
  intros [Hc Hs]%andb_prop. rewrite Hc. by apply IH.
Qed.

Lemma last_rev s : last (rev s) = head s.
Proof. destruct s as [|c s]; simpl; [done|]. apply last_snoc. Qed.

Lemma rstrip_last s : from_option isspace false (last (rstrip s)) = false.
Proof. unfold rstrip. rewrite last_rev. apply lstrip_head. Qed.

Lemma rstrip_head c s :
  isspace c = false -> head (rstrip (c :: s)) = Some c.
Proof.
  intros Hc. unfold rstrip. simpl.
  rewrite lstrip_snoc by done. by rewrite rev_unit.
Qed.

Lemma strip_trimmed s : trimmed (strip s) = true.
Proof.
  unfold trimmed, strip. rewrite rstrip_last.
  pose proof (lstrip_head s) as Hh.
  destruct (lstrip s) as [|c t]; [done|]. simpl in Hh.
  rewrite rstrip_head by done. simpl. by rewrite Hh.
Qed.

Lemma strip_all_space s : forallb isspace s = true -> strip s = [].
Proof. intros Hs. unfold strip. by rewrite lstrip_all_space. Qed.

Lemma in_range_overlap c (r1 r2 : N * N) :
  in_range c r1 = true -> in_range c r2 = true -> overlap r1 r2 = true.
Proof.
  unfold in_range, overlap.
  intros [H1 H2]%andb_prop [H3 H4]%andb_prop.
  apply N.leb_le in H1, H2, H3, H4.
  apply andb_true_intro; split; apply N.leb_le; lia.
Qed.

Lemma tables_disjoint :
  forallb
    (fun r => forallb (fun z => negb (overlap r (z, z + 9)%N)) decimal_zeros)
    whitespace_ranges = true.
Proof. vm_compute. reflexivity. Qed.

(** No decimal digit is whitespace. *)
Lemma isdecimal_not_space c : isdecimal c = true -> isspace c = false.
Proof.
  intros Hd. destruct (isspace c) eqn:Hs; [exfalso|done].
  unfold isspace in Hs. unfold isdecimal in Hd.
  apply existsb_exists in Hs as (r & Hr & Hcr).
  apply existsb_exists in Hd as (z & Hz & Hcz).
  pose proof (in_range_overlap c r _ Hcr Hcz) as Hov.
  pose proof tables_disjoint as Ht.
  rewrite forallb_forall in Ht. specialize (Ht r Hr).
  rewrite forallb_forall in Ht. specialize (Ht z Hz).
  by rewrite Hov in Ht.
Qed.

Lemma is_dot_eq c : is_dot c = true -> c = dot.
Proof. unfold is_dot. by intros ?%N.eqb_eq. Qed.

Lemma is_dot_not_space c : is_dot c = true -> isspace c = false.
Proof. by intros ->%is_dot_eq. Qed.

Lemma is_dot_not_decimal c : is_dot c = true -> isdecimal c = false.
Proof. by intros ->%is_dot_eq. Qed.

Lemma digits_and_dots_trimmed s : digits_and_dots s = true -> trimmed s = true.
Proof.
  unfold digits_and_dots, trimmed. intros Hs.
  assert (forall c, c ∈ s -> isspace c = false) as Hns.
  { intros c Hc. rewrite forallb_forall in Hs.
    specialize (Hs c (proj1 (list_elem_of_In _ _) Hc)).
    apply orb_prop in Hs as [Hd|Hd];
      [by apply isdecimal_not_space|by apply is_dot_not_space]. }
  destruct (head s) as [c|] eqn:Hh; simpl.
  - rewrite (Hns c) by (by apply head_Some_elem_of). simpl.
    destruct (last s) as [d|] eqn:Hl; simpl; [|done].
    rewrite (Hns d); [done|]. by apply last_Some_elem_of.
  - destruct (last s) as [d|] eqn:Hl; simpl; [|done].
    rewrite (Hns d); [done|]. by apply last_Some_elem_of.
Qed.

End Strip.

(** *** The extractors of one step *)

(** X1. [get_title] returns ["Title not found"] on a page without a
    [span] of id [productTitle]; on any other page it returns the text of
    the first such element, trimmed. *)
Theorem get_title_result (soup : markup) :
  (find soup (lit "span") (lit "id") (lit "productTitle") = None ->
   get_title soup = (Ok (lit "Title not found"), soup))
  /\ (forall t : node,
        find soup (lit "span") (lit "id") (lit "productTitle") = Some t ->
        get_title soup = (Ok (strip (get_text t)), soup)).
Proof.
  rewrite get_title_run. split.
  - by intros ->.
  - by intros t ->.
Qed.

Lemma get_title_result_witness :
  get_title bare_page = (Ok (lit "Title not found"), bare_page)
  /\ get_title full_page = (Ok (strip (get_text title_span)), full_page)
  /\ strip (get_text title_span) = lit "Steel Kettle".
Proof.
  split; [|split].
  - apply (proj1 (get_title_result bare_page)). reflexivity.
  - apply (proj2 (get_title_result full_page) title_span). reflexivity.
  - reflexivity.
Defined.

(** X2. [get_rating] and [get_seller_name] behave alike: the sentinel
    (["Rating not found"], ["Unknown Seller"]) on a page without the
    element they look for, the trimmed text of the first such element
    otherwise. *)
Theorem get_rating_seller_result (soup : markup) :
  (find soup (lit "span") (lit "class") (lit "a-icon-alt") = None ->
   get_rating soup = (Ok (lit "Rating not found"), soup))
  /\ (forall t : node,
        find soup (lit "span") (lit "class") (lit "a-icon-alt") = Some t ->
        get_rating soup = (Ok (strip (get_text t)), soup))
  /\ (find soup (lit "a") (lit "id") (lit "sellerProfileTriggerId") = None ->
      get_seller_name soup = (Ok (lit "Unknown Seller"), soup))
  /\ (forall t : node,
        find soup (lit "a") (lit "id") (lit "sellerProfileTriggerId")
        = Some t ->
        get_seller_name soup = (Ok (strip (get_text t)), soup)).
Proof.
  rewrite get_rating_run, get_seller_name_run. repeat split.
  - by intros ->.
  - by intros t ->.
  - by intros ->.
  - by intros t ->.
Qed.

Lemma get_rating_seller_result_witness :
  get_rating bare_page = (Ok (lit "Rating not found"), bare_page)
  /\ get_rating full_page = (Ok (strip (get_text rating_span)), full_page)
  /\ get_seller_name bare_page = (Ok (lit "Unknown Seller"), bare_page)
  /\ get_seller_name full_page
     = (Ok (strip (get_text seller_anchor)), full_page)
  /\ strip (get_text seller_anchor) = lit "Acme Retail".
Proof.
  pose proof (get_rating_seller_result bare_page) as (Hr & _ & Hs & _).
  pose proof (get_rating_seller_result full_page) as (_ & Hr' & _ & Hs').
  split; [apply Hr; reflexivity|].
  split; [apply (Hr' rating_span); reflexivity|].
  split; [apply Hs; reflexivity|].
  split; [apply (Hs' seller_anchor); reflexivity|reflexivity].
Defined.

(** X3. An element that is present wins even when it is empty: if the
    our-price element holds whitespace only, [get_price] returns the
    empty string, not the sentinel, and tries no later strategy. *)
Theorem get_price_blank_element (soup : markup) (t : node) :
  our_price soup = Some t ->
  forallb isspace (get_text t) = true ->
  get_price soup = (Ok [], soup).
Proof.
  intros Ho Hblank. rewrite get_price_run. unfold price_of. rewrite Ho.
  unfold trimmed_text. by rewrite strip_all_space.
Qed.

Lemma get_price_blank_element_witness :
  get_price empty_price_page = (Ok [], empty_price_page).
Proof.
  apply (get_price_blank_element empty_price_page blank_price_span);
    reflexivity.
Defined.

(** *** The record of a page *)

(** X4. After a [RequestException] [fetch_product_data] returns [None].
    Once the page was fetched and parsed, lines 80 to 91 raise nothing,
    whatever elements the page lacks: every [AttributeError] is caught
    inside the extractors, and the record returned has for its four
    fields what the four extractors return on that page, each run on its
    own. *)
Theorem fetch_product_data_fields :
  fetch_product_data None = Ok None
  /\ forall soup : markup, exists r : ProductRecord,
       fetch_product_data (Some soup) = Ok (Some r)
       /\ get_title soup = (Ok (product_name r), soup)
       /\ get_price soup = (Ok (price r), soup)
       /\ get_rating soup = (Ok (rating r), soup)
       /\ get_seller_name soup = (Ok (seller_name r), soup).
Proof.
  split; [reflexivity|]. intros soup. exists (record_of soup).
  unfold fetch_product_data. rewrite extract_record_run. simpl.
  rewrite get_title_run, get_price_run, get_rating_run, get_seller_name_run.
  by repeat split.
Qed.

Lemma price_of_trimmed (soup : markup) : trimmed (price_of soup) = true.
Proof.
  unfold price_of, trimmed_text.
  destruct (our_price soup); [apply strip_trimmed|].
  destruct (deal_price soup); [apply strip_trimmed|].
  destruct (sale_price soup); [apply strip_trimmed|].
  destruct (price_whole soup); [|reflexivity].
  destruct (price_fraction soup); [|reflexivity].
  apply digits_and_dots_trimmed, composite_price_shape.
Qed.

(** X5. No field of a record starts or ends with whitespace, whichever
    branch produced it: trimmed text, composite price or sentinel. *)
Theorem record_fields_trimmed (soup : markup) (r : ProductRecord) :
  fetch_product_data (Some soup) = Ok (Some r) ->
  trimmed (product_name r) = true
  /\ trimmed (price r) = true
  /\ trimmed (rating r) = true
  /\ trimmed (seller_name r) = true.
Proof.
  unfold fetch_product_data. rewrite extract_record_run. simpl.
  intros [= <-]. simpl. unfold trimmed_text.
  split; [|split; [apply price_of_trimmed|split]].
  - destruct (find soup _ _ _); [apply strip_trimmed|reflexivity].
  - destruct (find soup _ _ _); [apply strip_trimmed|reflexivity].
  - destruct (find soup _ _ _); [apply strip_trimmed|reflexivity].
Qed.

Lemma record_fields_trimmed_witness :
  trimmed (product_name (record_of full_page)) = true
  /\ trimmed (price (record_of full_page)) = true
  /\ trimmed (rating (record_of full_page)) = true
  /\ trimmed (seller_name (record_of full_page)) = true.
Proof.
  apply (record_fields_trimmed full_page (record_of full_page)).
  reflexivity.
Defined.

(** *** The composite price *)

Section Composite.

Implicit Types (s : str) (c : char).

Lemma digits_of_app s1 s2 : digits_of (s1 ++ s2) = digits_of s1 ++ digits_of s2.
Proof. apply List.filter_app. Qed.

Lemma digits_of_keep_last s : digits_of (keep_last_dot s) = digits_of s.
Proof.
  unfold digits_of. induction s as [|c s IH]; simpl; [done|].
  destruct (is_dot c) eqn:Hc; simpl.
  - rewrite (is_dot_not_decimal c Hc).
    destruct (existsb is_dot s); simpl; [exact IH|].
    by rewrite (is_dot_not_decimal c Hc), IH.
  - by rewrite IH.
Qed.

Lemma digits_of_sub s : digits_of (sub_non_digit_dot s) = digits_of s.
Proof.
  unfold digits_of, sub_non_digit_dot.
  induction s as [|c s IH]; simpl; [done|].
  destruct (isdecimal c) eqn:Hd; simpl; [by rewrite Hd, IH|].
  destruct (is_dot c); simpl; [by rewrite Hd|exact IH].
Qed.

Lemma count_dots_keep_last_one s :
  existsb is_dot s = true -> count_dots (keep_last_dot s) = 1.
Proof.
  induction s as [|c s IH]; simpl; [done|].
  destruct (is_dot c) eqn:Hc; simpl.
  - intros _. destruct (existsb is_dot s) eqn:Hd; [by apply IH|].
    simpl. rewrite Hc, keep_last_dot_no_dot by exact Hd.
    apply count_dots_zero in Hd. lia.
  - intros Hd. rewrite Hc. rewrite IH by exact Hd. lia.
Qed.

Lemma sub_non_digit_dot_app s1 s2 :
  sub_non_digit_dot (s1 ++ s2) = sub_non_digit_dot s1 ++ sub_non_digit_dot s2.
Proof. apply List.filter_app. Qed.

Lemma sub_no_dot s :
  existsb is_dot s = false -> sub_non_digit_dot s = digits_of s.
Proof.
  unfold sub_non_digit_dot, digits_of.
  induction s as [|c s IH]; simpl; [done|].
  intros [Hc Hs]%orb_false_elim. rewrite Hc, orb_false_r.
  by rewrite IH.
Qed.

Lemma existsb_dot_digits s : existsb is_dot (digits_of s) = false.
Proof.
  unfold digits_of. induction s as [|c s IH]; simpl; [done|].
  destruct (isdecimal c) eqn:Hd; simpl; [|exact IH].
  rewrite IH, orb_false_r.
  destruct (is_dot c) eqn:Hc; [|done].
  by rewrite (is_dot_not_decimal c Hc) in Hd.
Qed.

(** With no decimal point after it, the point at the end of the first
    part is the one that stays; the first part loses all of its own. *)
Lemma keep_last_dot_before s1 s2 :
  existsb is_dot s2 = false ->
  keep_last_dot (sub_non_digit_dot s1 ++ dot :: s2)
  = digits_of s1 ++ dot :: s2.
Proof.
  intros Hs2. unfold sub_non_digit_dot, digits_of.
  induction s1 as [|c s1 IH]; simpl.
  - rewrite Hs2. simpl. by rewrite keep_last_dot_no_dot.
  - destruct (isdecimal c) eqn:Hd; simpl.
    + destruct (is_dot c) eqn:Hc;
        [by rewrite (is_dot_not_decimal c Hc) in Hd|].
      simpl. by rewrite IH.
    + destruct (is_dot c) eqn:Hc; simpl; [|exact IH].
      rewrite Hc. simpl.
      rewrite existsb_app. simpl.
      replace (is_dot dot) with true by reflexivity.
      rewrite orb_true_r. simpl. exact IH.
Qed.

End Composite.

(** X6. The composite price always has exactly one decimal point, and its
    digits are the digits of the whole part followed by those of the
    fraction part: no digit is lost, added or moved. *)
Theorem composite_price_digits (whole_price fraction_price : str) :
  count_dots (composite_price whole_price fraction_price) = 1
  /\ digits_of (composite_price whole_price fraction_price)
     = digits_of whole_price ++ digits_of fraction_price.
Proof.
  unfold composite_price. rewrite collapse_dots_keep_last. split.
  - apply count_dots_keep_last_one.
    rewrite !sub_non_digit_dot_app, !existsb_app.
    replace (existsb is_dot (sub_non_digit_dot (lit "."))) with true
      by reflexivity.
    by rewrite orb_true_r.
  - rewrite digits_of_keep_last, digits_of_sub, !digits_of_app.
    reflexivity.
Qed.

(** X7. When the fraction part has no decimal point of its own, the
    composite price is the digits of the whole part, one decimal point,
    and the digits of the fraction part: separators and decimal points of
    the whole part go (["1,299."] and ["00"] give ["1299.00"]). *)
Theorem composite_price_plain_fraction (whole_price fraction_price : str) :
  existsb is_dot fraction_price = false ->
  composite_price whole_price fraction_price
  = digits_of whole_price ++ lit "." ++ digits_of fraction_price.
Proof.
  intros Hf. unfold composite_price. rewrite collapse_dots_keep_last.
  rewrite sub_non_digit_dot_app.
  change (lit "." ++ fraction_price) with (dot :: fraction_price).
  change (sub_non_digit_dot (dot :: fraction_price))
    with (dot :: sub_non_digit_dot fraction_price).
  rewrite (sub_no_dot fraction_price Hf).
  apply keep_last_dot_before, existsb_dot_digits.
Qed.

Lemma composite_price_plain_fraction_witness :
  composite_price (lit "1,299.") (lit "00")
  = digits_of (lit "1,299.") ++ lit "." ++ digits_of (lit "00")
  /\ digits_of (lit "1,299.") ++ lit "." ++ digits_of (lit "00")
     = lit "1299.00".
Proof.
  split; [|reflexivity].
  apply (composite_price_plain_fraction (lit "1,299.") (lit "00")).
  reflexivity.
Defined.

(** *** The links *)

Section MoreLinks.

Implicit Types (soup : markup) (s : str) (links : gset str).

Lemma startswith_app (p s : str) : startswith (p ++ s) p = true.
Proof.
  induction p as [|c p IH]; simpl; [by destruct s|].
  by rewrite N.eqb_refl, IH.
Qed.

Lemma contains_app_r (sub p s : str) :
  contains sub s = true -> contains sub (p ++ s) = true.
Proof.
  intros Hs. induction p as [|c p IH]; simpl; [exact Hs|].
  rewrite IH. apply orb_true_r.
Qed.

Lemma product_href_Some (link_tag : node) (link : str) :
  product_href link_tag = Some link <->
  tag_get link_tag (lit "href") = Some link
  /\ contains (lit "/dp/") link = true.
Proof.
  unfold product_href.
  destruct (tag_get link_tag (lit "href")) as [h|]; [|by split; [|intros []]].
  destruct (contains (lit "/dp/") h) eqn:Hc; split.
  - by intros [= <-].
  - by intros [[= <-] _].
  - discriminate.
  - intros [[= <-] Hc']. congruence.
Qed.

Lemma full_link_inj : Inj (=) (=) full_link.
Proof. intros a b H. unfold full_link in H. by apply app_inv_head in H. Qed.

Lemma length_omap_le {A B} (f : A -> option B) (l : list A) :
  (length (omap f l) <= length l)%nat.
Proof.
  induction l as [|a l IH]; [done|].
  change (omap f (a :: l))
    with (match f a with Some y => y :: omap f l | None => omap f l end).
  destruct (f a); simpl; lia.
Qed.

Lemma length_remove_dups_le (l : list str) :
  (length (remove_dups l) <= length l)%nat.
Proof.
  apply submseteq_length, NoDup_submseteq; [apply NoDup_remove_dups|].
  intros x. by rewrite elem_of_remove_dups.
Qed.

Lemma list_to_set_fmap_remove_dups (l : list str) :
  list_to_set (full_link <$> l)
  =@{gset str} list_to_set (full_link <$> remove_dups l).
Proof.
  apply set_eq. intros x. rewrite !elem_of_list_to_set, !list_elem_of_fmap.
  split; intros (h & -> & Hh); exists h; split; try done;
    by apply elem_of_remove_dups.
Qed.

End MoreLinks.

(** X8. A string is among the collected links exactly when it is the
    site's origin followed by the [href] of an anchor of the card class
    whose [href] contains ["/dp/"].  So every link starts with the origin
    and contains ["/dp/"], and nothing else gets in. *)
Theorem product_links_members (soup : markup) (links : gset str) :
  product_links soup = Ok links ->
  (forall l : str,
     l ∈ links <->
     exists (link_tag : node) (link : str),
       link_tag ∈ link_tags soup
       /\ tag_get link_tag (lit "href") = Some link
       /\ contains (lit "/dp/") link = true
       /\ l = origin ++ link)
  /\ (forall l : str,
        l ∈ links ->
        startswith l origin = true /\ contains (lit "/dp/") l = true).
Proof.
  rewrite product_links_run. intros [= <-].
  assert (forall l : str,
     l ∈@{gset str} list_to_set (full_link <$> product_hrefs soup) <->
     exists (link_tag : node) (link : str),
       link_tag ∈ link_tags soup
       /\ tag_get link_tag (lit "href") = Some link
       /\ contains (lit "/dp/") link = true
       /\ l = origin ++ link) as Hmem.
  { intros l. rewrite elem_of_list_to_set, list_elem_of_fmap.
    unfold product_hrefs. split.
    - intros (h & -> & Hh). apply list_elem_of_omap in Hh as (a & Ha & Hp).
      apply product_href_Some in Hp as [Hget Hdp]. by exists a, h.
    - intros (a & h & Ha & Hget & Hdp & ->). exists h. split; [done|].
      apply list_elem_of_omap. exists a. split; [done|].
      by apply product_href_Some. }
  split; [exact Hmem|].
  intros l (a & h & _ & _ & Hdp & ->)%Hmem. split.
  - apply startswith_app.
  - by apply contains_app_r.
Qed.

Lemma product_links_members_witness :
  startswith (origin ++ lit "/dp/ABC123?ref=x") origin = true
  /\ contains (lit "/dp/") (origin ++ lit "/dp/ABC123?ref=x") = true.
Proof.
  apply (proj2 (product_links_members search_page
                  {[ full_link (lit "/dp/ABC123?ref=x") ]} eq_refl)).
  apply elem_of_singleton. reflexivity.
Defined.

(** X9. The number of collected links is the number of distinct [href]
    values among the matching anchors, since the links are compared as
    whole strings: targets that differ in a query string only count
    twice.  It is at most the number of anchors of the card class. *)
Theorem product_links_size (soup : markup) :
  exists links : gset str,
    product_links soup = Ok links
    /\ size links = length (remove_dups (product_hrefs soup))
    /\ (size links <= length (link_tags soup))%nat.
Proof.
  exists (list_to_set (full_link <$> product_hrefs soup)).
  split; [apply product_links_run|].
  assert (size (list_to_set (full_link <$> product_hrefs soup) : gset str)
          = length (remove_dups (product_hrefs soup))) as Hsize.
  { rewrite list_to_set_fmap_remove_dups, size_list_to_set, length_fmap;
      [done|].
    pose proof full_link_inj as Hinj.
    apply (NoDup_fmap_2 _), NoDup_remove_dups. }
  split; [exact Hsize|]. rewrite Hsize.
  etrans; [apply length_remove_dups_le|]. apply length_omap_le.
Qed.

(** *** The anchors the loop looks at *)

Section CardClass.

Implicit Types (s t : str) (c : char).

Lemma space_free_rev s : space_free s = true -> space_free (rev s) = true.
Proof.
  unfold space_free. rewrite !forallb_forall.
  intros H c Hc. apply H. by apply in_rev.
Qed.

Lemma split_ws_space_free (cur s : str) :
  space_free cur = true ->
  Forall (fun t => space_free t = true) (split_ws cur s).
Proof.
  revert cur. induction s as [|c s IH]; intros cur Hcur; simpl.
  - destruct cur; [constructor|].
    constructor; [by apply space_free_rev|constructor].
  - destruct (isspace c) eqn:Hc.
    + destruct cur; [by apply IH|].
      constructor; [by apply space_free_rev|by apply IH].
    + apply IH. simpl. by rewrite Hc.
Qed.

Lemma space_free_no_space (s1 s2 : str) :
  space_free (s1 ++ lit " " ++ s2) = false.
Proof.
  unfold space_free. rewrite forallb_app. simpl. apply andb_false_r.
Qed.

(** A string splits in one way only at its first space. *)
Lemma first_space_unique (x a rest b : str) :
  space_free x = true -> space_free a = true ->
  x ++ lit " " ++ rest = a ++ lit " " ++ b -> x = a /\ rest = b.
Proof.
  revert a. induction x as [|c x IH]; intros [|d a] Hx Ha Heq; simpl in *.
  - by injection Heq as ->.
  - injection Heq as <- _. discriminate.
  - injection Heq as -> _. discriminate.
  - injection Heq as -> Heq.
    apply andb_prop in Hx as [_ Hx]. apply andb_prop in Ha as [_ Ha].
    destruct (IH a Hx Ha Heq) as [-> ->]. done.
Qed.

Lemma join_cons_cons (x y : str) (l : list str) :
  join (lit " ") (x :: y :: l) = x ++ lit " " ++ join (lit " ") (y :: l).
Proof. reflexivity. Qed.

(** Space-free items joined by single spaces give ["a b"] for the two
    items [a] and [b] only. *)
Lemma join_two (items : list str) (a b : str) :
  Forall (fun t => space_free t = true) items ->
  space_free a = true -> space_free b = true ->
  join (lit " ") items = a ++ lit " " ++ b -> items = [a; b].
Proof.
  intros Hitems Ha Hb Hjoin.
  destruct items as [|x [|y items]].
  - simpl in Hjoin. by destruct a.
  - change (join (lit " ") [x]) with x in Hjoin. subst x.
    apply Forall_cons_1 in Hitems as [Hx _].
    by rewrite space_free_no_space in Hx.
  - rewrite join_cons_cons in Hjoin.
    apply Forall_cons_1 in Hitems as [Hx Hitems].
    destruct (first_space_unique _ _ _ _ Hx Ha Hjoin) as [-> Hrest].
    destruct items as [|z items].
    + change (join (lit " ") [y]) with y in Hrest. by subst y.
    + rewrite join_cons_cons in Hrest. rewrite <- Hrest in Hb.
      by rewrite space_free_no_space in Hb.
Qed.

Lemma card_class_matches (v : str) :
  existsb (fun item => eqb item card_class) (class_tokens v)
  || eqb (join (lit " ") (class_tokens v)) card_class = true
  <-> class_tokens v = card_classes.
Proof.
  pose proof (split_ws_space_free [] v eq_refl) as Hfree.
  fold (class_tokens v) in Hfree. split.
  - intros [Hitem|Hjoin]%orb_prop.
    + apply existsb_exists in Hitem as (t & Ht & Heq).
      apply bool_decide_eq_true in Heq. subst t.
      rewrite Forall_forall in Hfree.
      specialize (Hfree _ (proj2 (list_elem_of_In _ _) Ht)).
      discriminate.
    + apply bool_decide_eq_true in Hjoin.
      by apply (join_two _ (lit "a-link-normal") (lit "s-no-outline")).
  - intros ->. reflexivity.
Qed.

End CardClass.

(** X10. The loop looks at an element exactly when it is an [a] tag of
    the page whose class attribute consists of the two classes
    [a-link-normal] and [s-no-outline], in this order and nothing more;
    whitespace around and between them does not count.  An anchor with a
    third class, or with the two swapped, is passed over. *)
Theorem link_tags_exact (soup : markup) (n : node) :
  n ∈ link_tags soup <->
  n ∈ descendants soup
  /\ exists (attrs : gmap str str) (contents : list node) (v : str),
       n = Tag (lit "a") attrs contents
       /\ attrs !! lit "class" = Some v
       /\ class_tokens v = card_classes.
Proof.
  unfold link_tags, find_all. rewrite list_elem_of_filter.
  rewrite (and_comm (tag_matches _ _ _ n = true)).
  apply and_iff_compat_l.
  destruct n as [t|t|nm attrs contents]; simpl;
    [split; [done|by intros (? & ? & ? & ? & _)]..|].
  unfold attr_matches.
  replace (eqb (lit "class") (lit "class")) with true by reflexivity.
  split.
  - intros [Hnm Hattr]%andb_prop. apply bool_decide_eq_true in Hnm.
    subst nm. destruct (attrs !! lit "class") as [v|] eqn:Hv; [|done].
    exists attrs, contents, v. split; [done|split; [done|]].
    by apply card_class_matches.
  - intros (attrs' & contents' & v & [= -> -> ->] & Hv & Htok).
    rewrite Hv. apply andb_true_intro. split; [reflexivity|].
    by apply card_class_matches.
Qed.

Lemma link_tags_exact_witness :
  card_with_spaces ∈ link_tags [card_with_extra_class; card_with_spaces].
Proof.
  apply (proj2 (link_tags_exact
                  [card_with_extra_class; card_with_spaces]
                  card_with_spaces)).
  split; [apply list_elem_of_further, list_elem_of_here|].
  eexists _, _, _. split; [reflexivity|]. split; reflexivity.
Defined.

(** *** The run as a whole *)

Section Run.

Implicit Types (responses : list (option markup)) (soup : markup).

Lemma fetched_records_app responses1 responses2 :
  fetched_records (responses1 ++ responses2)
  = fetched_records responses1 ++ fetched_records responses2.
Proof. unfold fetched_records. by rewrite omap_app, fmap_app. Qed.


Lemma fetched_records_cons_Some soup responses :
  fetched_records (Some soup :: responses)
  = record_of soup :: fetched_records responses.
Proof. reflexivity. Qed.

Lemma amazon_data_csv_rows responses :
  amazon_data_csv responses =
  Ok (csv_header
      :: map record_fields (filter named (fetched_records responses))).
Proof. rewrite amazon_data_csv_run. apply save_accumulate. Qed.

End Run.

(** X11. The four lists of [data] grow together: after the loop over any
    responses each holds one entry per fetched page, so the frame can
    always be built from them and has that many rows. *)
Theorem fetch_loop_columns (responses : list (option markup)) :
  exists (data : columns) (df : frame),
    fetch_loop responses empty_columns = (Ok tt, data)
    /\ length (col_product_name data) = length (omap id responses)
    /\ length (col_price data) = length (omap id responses)
    /\ length (col_rating data) = length (omap id responses)
    /\ length (col_seller_name data) = length (omap id responses)
    /\ DataFrame data = Ok df
    /\ length df = length (omap id responses).
Proof.
  exists (accumulate (fetched_records responses)),
         (map row_of_record (fetched_records responses)).
  split.
  { rewrite fetch_loop_run. unfold accumulate.
    by rewrite for_each_append_record. }
  rewrite DataFrame_accumulate, accumulate_columns. simpl.
  unfold fetched_records. by rewrite ?length_map, ?length_fmap.
Qed.


(** X14. A page whose title element holds whitespace only is dropped
    from the file, as if it had not been fetched: its name is the empty
    string, which becomes NaN. *)
Theorem blank_title_is_dropped
    (before after : list (option markup)) (soup : markup) (t : node) :
  find soup (lit "span") (lit "id") (lit "productTitle") = Some t ->
  forallb isspace (get_text t) = true ->
  amazon_data_csv (before ++ Some soup :: after)
  = amazon_data_csv (before ++ after).
Proof.
  intros Hfind Hblank.
  rewrite !amazon_data_csv_rows, !fetched_records_app.
  rewrite fetched_records_cons_Some, !filter_app.
  rewrite (filter_cons_False named); [done|].
  unfold named, record_of. simpl. rewrite Hfind. simpl.
  unfold trimmed_text. rewrite strip_all_space by done.
  by intros H.
Qed.

Lemma blank_title_is_dropped_witness :
  amazon_data_csv ([Some full_page] ++ Some blank_title_page :: [None])
  = amazon_data_csv ([Some full_page] ++ [None]).
Proof.
  eapply (blank_title_is_dropped [Some full_page] [None] blank_title_page);
    reflexivity.
Defined.

(** X16. The rows of a run over two batches of responses are the rows of
    the first batch followed by the rows of the second. *)
Theorem amazon_data_csv_app (responses1 responses2 : list (option markup)) :
  data_rows (amazon_data_csv (responses1 ++ responses2))
  = data_rows (amazon_data_csv responses1)
    ++ data_rows (amazon_data_csv responses2).
Proof.
  rewrite !amazon_data_csv_rows, fetched_records_app. simpl.
  by rewrite filter_app, map_app.
Qed.
